(** * TaskInclude: validation and expansion of include/import task directives

    A shallow embedding of [lib/ansible/playbook/task_include.py].

    Python values are an inductive type, dictionaries are finite maps with
    string keys, and the methods of [TaskInclude] are programs of a small
    state-and-exception monad: they mutate the object they work on and may
    raise, and the state reached when an exception is raised stays
    observable, as it is in Python. *)

From Stdlib Require Import ZArith.
From stdpp Require Import base option list sorting gmap strings.

Set Warnings "-register-all".

(** ** Python values *)

(** The values a decoded task can hold. [PSentinel] is the class object
    [ansible.utils.sentinel.Sentinel], which the code compares by identity. *)
Inductive pyval : Type :=
  | PNone
  | PSentinel
  | PBool (b : bool)
  | PInt (z : Z)
  | PStr (s : string)
  | PList (l : list pyval)
  | PDict (d : gmap string pyval).

(** Truth value of an object, as [if x] and [not x] compute it. *)
Definition truthy (v : pyval) : bool :=
  match v with
  | PNone => false
  | PSentinel => true
  | PBool b => b
  | PInt z => negb (z =? 0)%Z
  | PStr s => negb (String.eqb s "")
  | PList l => match l with [] => false | _ => true end
  | PDict d => match map_to_list d with [] => false | _ => true end
  end.

(** [isinstance(v, dict)] *)
Definition isinstance_dict (v : pyval) : bool :=
  match v with PDict _ => true | _ => false end.

(** [v is Sentinel] *)
Definition is_Sentinel (v : pyval) : bool :=
  match v with PSentinel => true | _ => false end.

(** [type(v).__name__] for the built-in types. *)
Definition type_name (v : pyval) : string :=
  match v with
  | PNone => "NoneType"
  | PSentinel => "type"
  | PBool _ => "bool"
  | PInt _ => "int"
  | PStr _ => "str"
  | PList _ => "list"
  | PDict _ => "dict"
  end.

(** ['%s' % type(v)] *)
Definition type_str (v : pyval) : string :=
  "<class '" +:+ type_name v +:+ "'>".

(** [d.get(k, dflt)] *)
Definition dict_get (d : gmap string pyval) (k : string) (dflt : pyval) : pyval :=
  default dflt (d !! k).

(** [x in t] for a tuple [t] of strings. *)
Definition in_tuple (x : string) (t : list string) : bool :=
  bool_decide (x ∈ t).

(** [v in t] where [v] is any value: only an equal string is a member. *)
Definition pyval_in_tuple (v : pyval) (t : list string) : bool :=
  match v with PStr s => in_tuple s t | _ => false end.

(** ** Exceptions and the monad of Python methods *)

Inductive exn : Type :=
  | AnsibleParserError (message : string) (obj : option pyval)
  | KeyError (key : string)
  | TypeError (message : string)
  | AttributeError (message : string).

Inductive outcome (A : Type) : Type :=
  | Return (a : A)
  | Raise (e : exn).
Arguments Return {A} a.
Arguments Raise {A} e.

(** A method run on a mutable object of type [S]: the object after the run,
    and what the run returned or raised. *)
Definition Py (S A : Type) : Type := S → S * outcome A.

#[global] Instance Py_ret {S} : MRet (Py S) := λ A a s, (s, Return a).
#[global] Instance Py_bind {S} : MBind (Py S) := λ A B f m s,
  match m s with
  | (s', Return a) => f a s'
  | (s', Raise e) => (s', Raise e)
  end.

Definition raise {S A} (e : exn) : Py S A := λ s, (s, Raise e).
Definition get {S} : Py S S := λ s, (s, Return s).
Definition when {S} (b : bool) (m : Py S unit) : Py S unit :=
  if b then m else mret tt.

(** [for x in l: body(x)] *)
Fixpoint for_each {S A} (l : list A) (body : A → Py S unit) : Py S unit :=
  match l with
  | [] => mret tt
  | x :: l' => body x ;; for_each l' body
  end.

Definition is_Return {A} (o : outcome A) : bool :=
  match o with Return _ => true | Raise _ => false end.

(** A call that does not touch the object. *)
Definition lift {S A} (o : outcome A) : Py S A := λ s, (s, o).

(** [o[k] = v], returning the updated object: only a dict takes a string
    key. *)
Definition setitem (o : pyval) (k : string) (v : pyval) : outcome pyval :=
  match o with
  | PDict d => Return (PDict (<[k := v]> d))
  | PList _ => Raise (TypeError "list indices must be integers or slices, not str")
  | _ => Raise (TypeError ("'" +:+ type_name o
                           +:+ "' object does not support item assignment"))
  end.

(** [d[k]] *)
Definition getitem (d : gmap string pyval) (k : string) : outcome pyval :=
  match d !! k with
  | Some v => Return v
  | None => Raise (KeyError k)
  end.

(** ** The display sink *)

(** The warnings handed to [display.warning], oldest first. *)
Definition Display : Type := list string.

(** [display.warning(msg)] *)
Definition display_warning (msg : string) : Py Display unit :=
  λ log, (log ++ [msg], Return tt).

(** ** The constants store [ansible.constants] *)

(** The module [ansible.constants] is imported as [C]; the code reads three
    tuples of action names and one flag from it. They are parameters here. *)
Record Constants : Type := {
  _ACTION_ALL_PROPER_INCLUDE_IMPORT_TASKS : list string;
  _ACTION_INCLUDE_TASKS : list string;
  _ACTION_ALL_INCLUDE_ROLE_TASKS : list string;
  INVALID_TASK_ATTRIBUTE_FAILED : bool
}.

(** ** Collaborating entities *)

(** The play, role, variable manager, loader and block are known to this
    file only through references; [_play] reads the attribute of that name
    of a block. *)
Class Entities : Type := {
  Play : Type;
  Role : Type;
  VariableManager : Type;
  DataLoader : Type;
  Block : Type;
  _play : Block → Play
}.

(** ** The directive *)

(** The attributes of a [TaskInclude] object that the methods read or
    write. [class_name] is [self.__class__.__name__]. The keys of [args]
    are strings: a dict with a key of another type is outside this model.
    (Such a key is outside [VALID_ARGS], and on a tasks-family action the
    [join] of line 74 raises [TypeError] on it instead of building the
    message of the parser error.) *)
Record TaskInclude `{Entities} : Type := {
  class_name : string;
  action : string;
  args : gmap string pyval;
  statically_loaded : bool;
  _parent : option Block;
  _role : option Role;
  _variable_manager : option VariableManager;
  _loader : option DataLoader
}.

(** What [p_block] is bound to when [build_parent_block] returns: a block
    that [Block.load] made, or the object [self]. *)
Inductive parent_block `{Entities} : Type :=
  | NewBlock (b : Block)
  | Self.

(** Code of other modules that the methods call: the two methods of the
    base class [Task] reached through [super], and the constructor
    [Block.load]. [Task.preprocess_data] may warn and raise; [Task.copy]
    returns a new object; [Block.load] returns a block or raises. *)
Class BaseEntity `{Entities} : Type := {
  Task_preprocess_data :
    TaskInclude → gmap string pyval → Py Display (gmap string pyval);
  Task_copy : TaskInclude → bool → bool → TaskInclude;
  Block_load :
    pyval → Play → TaskInclude → option Role → option VariableManager →
    option DataLoader → outcome Block
}.

Definition BASE : gset string := {[ "file"; "_raw_params" ]}.
Definition OTHER_ARGS : gset string := {[ "apply" ]}.
Definition VALID_ARGS : gset string := BASE ∪ OTHER_ARGS.
Definition VALID_INCLUDE_KEYWORDS : gset string :=
  {[ "action"; "args"; "collections"; "debugger"; "ignore_errors"; "loop";
     "loop_control"; "loop_with"; "name"; "no_log"; "register"; "run_once";
     "tags"; "timeout"; "vars"; "when" ]}.

Section task_include.
Context `{BaseEntity}.

(** [self.x = v] for the attributes that are assigned. *)
Definition with_args (task : TaskInclude) (a : gmap string pyval) : TaskInclude :=
  {| class_name := class_name task; action := action task; args := a;
     statically_loaded := statically_loaded task; _parent := _parent task;
     _role := _role task; _variable_manager := _variable_manager task;
     _loader := _loader task |}.

Definition with_statically_loaded (task : TaskInclude) (b : bool) : TaskInclude :=
  {| class_name := class_name task; action := action task; args := args task;
     statically_loaded := b; _parent := _parent task;
     _role := _role task; _variable_manager := _variable_manager task;
     _loader := _loader task |}.

(** [task.args.get(k, dflt)] *)
Definition args_get (k : string) (dflt : pyval) : Py TaskInclude pyval :=
  λ task, (task, Return (dict_get (args task) k dflt)).

(** [task.args[k]] *)
Definition args_getitem (k : string) : Py TaskInclude pyval :=
  λ task, match args task !! k with
          | Some v => (task, Return v)
          | None => (task, Raise (KeyError k))
          end.

(** [task.args[k] = v] *)
Definition args_setitem (k : string) (v : pyval) : Py TaskInclude unit :=
  λ task, (with_args task (<[k := v]> (args task)), Return tt).

(** [task.args.pop(k, dflt)] *)
Definition args_pop (k : string) (dflt : pyval) : Py TaskInclude pyval :=
  λ task, (with_args task (delete k (args task)),
           Return (dict_get (args task) k dflt)).

(** *** [check_options] *)

Variable C : Constants.

(** The order in which a [set] or [frozenset] of strings is iterated.
    Python fixes it by the hash values of the members, which change from
    one interpreter run to the next, so it is a parameter. *)
Variable set_iter : gset string → list string.

(** [check_options(self, task, data)]. The state is the object [task],
    which the method returns in the end. *)
Definition check_options (data : pyval) : Py TaskInclude TaskInclude :=
  task ← get;
  let my_arg_names := dom (args task) in
  (* validate bad args, otherwise we silently ignore *)
  let bad_opts := my_arg_names ∖ VALID_ARGS in
  when (bool_decide (bad_opts ≠ ∅)
        && in_tuple (action task) (_ACTION_ALL_PROPER_INCLUDE_IMPORT_TASKS C))
    (raise (AnsibleParserError
              ("Invalid options for " +:+ action task +:+ ": "
               +:+ String.concat "," (set_iter bad_opts))
              (Some data)));;
  raw_params ← args_get "_raw_params" PNone;
  when (negb (truthy raw_params))
    (file ← args_pop "file" PNone;
     args_setitem "_raw_params" file;;
     raw_params ← args_getitem "_raw_params";
     when (negb (truthy raw_params))
       (task ← get;
        raise (AnsibleParserError
                 ("No file specified for " +:+ action task) None)));;
  apply_attrs ← args_get "apply" (PDict ∅);
  task ← get;
  (if truthy apply_attrs
      && negb (in_tuple (action task) (_ACTION_INCLUDE_TASKS C))
   then raise (AnsibleParserError
                 ("Invalid options for " +:+ action task +:+ ": apply")
                 (Some data))
   else if negb (isinstance_dict apply_attrs)
   then raise (AnsibleParserError
                 ("Expected a dict for apply but got "
                  +:+ type_str apply_attrs +:+ " instead")
                 (Some data))
   else mret tt);;
  get.

(** *** [preprocess_data] *)

Definition preprocess_data (self : TaskInclude) (ds : gmap string pyval)
  : Py Display (gmap string pyval) :=
  ds ← Task_preprocess_data self ds;
  let diff := dom ds ∖ VALID_INCLUDE_KEYWORDS in
  for_each (set_iter diff) (λ k,
    v ← lift (getitem ds k);
    if negb (is_Sentinel v) then
      a ← lift (getitem ds "action");
      if pyval_in_tuple a (_ACTION_ALL_INCLUDE_ROLE_TASKS C) then
        if INVALID_TASK_ATTRIBUTE_FAILED C then
          raise (AnsibleParserError
                   ("'" +:+ k +:+ "' is not a valid attribute for a "
                    +:+ class_name self)
                   (Some (PDict ds)))
        else display_warning ("Ignoring invalid attribute: " +:+ k)
      else mret tt
    else mret tt);;
  mret ds.

(** *** [copy] *)

Definition copy (self : TaskInclude) (exclude_parent exclude_tasks : bool)
  : TaskInclude :=
  let new_me := Task_copy self exclude_parent exclude_tasks in
  with_statically_loaded new_me (statically_loaded self).

(** *** [build_parent_block] *)

(** The state is the object [self]; [Self] as a result is that object. *)
Definition build_parent_block : Py TaskInclude parent_block :=
  apply_attrs ← args_pop "apply" (PDict ∅);
  if truthy apply_attrs then
    apply_attrs ← lift (setitem apply_attrs "block" (PList []));
    self ← get;
    parent ← match _parent self with
             | Some b => mret b
             | None => raise (AttributeError
                                "'NoneType' object has no attribute '_play'")
             end;
    p_block ← lift (Block_load apply_attrs (_play parent) self (_role self)
                      (_variable_manager self) (_loader self));
    mret (NewBlock p_block)
  else mret Self.

(** *** The three blocks of [check_options], one by one *)

(** Lines 69-74: reject option names outside [VALID_ARGS]. *)
Definition validate_bad_args (data : pyval) : Py TaskInclude unit :=
  task ← get;
  let my_arg_names := dom (args task) in
  let bad_opts := my_arg_names ∖ VALID_ARGS in
  when (bool_decide (bad_opts ≠ ∅)
        && in_tuple (action task) (_ACTION_ALL_PROPER_INCLUDE_IMPORT_TASKS C))
    (raise (AnsibleParserError
              ("Invalid options for " +:+ action task +:+ ": "
               +:+ String.concat "," (set_iter bad_opts))
              (Some data))).

(** Lines 76-79: fold [file] into [_raw_params]. *)
Definition fold_file_into_raw_params : Py TaskInclude unit :=
  raw_params ← args_get "_raw_params" PNone;
  when (negb (truthy raw_params))
    (file ← args_pop "file" PNone;
     args_setitem "_raw_params" file;;
     raw_params ← args_getitem "_raw_params";
     task ← get;
     when (negb (truthy raw_params))
       (raise (AnsibleParserError
                 ("No file specified for " +:+ action task) None))).

(** Lines 81-85: [apply] only on the dynamic include, and only a dict. *)
Definition validate_apply (data : pyval) : Py TaskInclude unit :=
  apply_attrs ← args_get "apply" (PDict ∅);
  task ← get;
  if truthy apply_attrs
     && negb (in_tuple (action task) (_ACTION_INCLUDE_TASKS C))
  then raise (AnsibleParserError
                ("Invalid options for " +:+ action task +:+ ": apply")
                (Some data))
  else if negb (isinstance_dict apply_attrs)
  then raise (AnsibleParserError
                ("Expected a dict for apply but got "
                 +:+ type_str apply_attrs +:+ " instead")
                (Some data))
  else mret tt.

(** *** Names for what the blocks of [check_options] compute *)

Definition bad_opts (task : TaskInclude) : gset string :=
  dom (args task) ∖ VALID_ARGS.

(** The object after [file] was popped and stored under [_raw_params]. *)
Definition folded (task : TaskInclude) : TaskInclude :=
  with_args task
    (<["_raw_params" := dict_get (args task) "file" PNone]>
       (delete "file" (args task))).

(** *** Names for what the loop of [preprocess_data] visits *)

(** The key is bound in [ds] to something other than [Sentinel]. *)
Definition supplied (ds : gmap string pyval) (k : string) : bool :=
  match ds !! k with
  | Some v => negb (is_Sentinel v)
  | None => false
  end.

(** The keys outside [VALID_INCLUDE_KEYWORDS] that were supplied, in the
    order the loop meets them. *)
Definition extraneous (ds : gmap string pyval) : list string :=
  filter (λ k, supplied ds k) (set_iter (dom ds ∖ VALID_INCLUDE_KEYWORDS)).

End task_include.

(** ** Concrete collaborators, for running the methods *)

(** Modelled from the spec: the constants store [ansible.constants] is not
    part of these sources. The spec names the families: the include and
    import task actions are the "tasks family", of which only the dynamic
    include may carry [apply]; the include and import role actions are the
    "role family"; the flag selects failure over a warning. *)
Definition ansible_constants (strict : bool) : Constants :=
  {| _ACTION_ALL_PROPER_INCLUDE_IMPORT_TASKS := ["include_tasks"; "import_tasks"];
     _ACTION_INCLUDE_TASKS := ["include_tasks"];
     _ACTION_ALL_INCLUDE_ROLE_TASKS := ["include_role"; "import_role"];
     INVALID_TASK_ATTRIBUTE_FAILED := strict |}.

(** Entities by name: a play, role, variable manager and loader are their
    names, a block is the data it was loaded from and the name of its play. *)
Definition named_entities : Entities :=
  {| Play := string; Role := string; VariableManager := string;
     DataLoader := string; Block := pyval * string; _play := snd |}.

(** A base entity that passes the data through, copies every attribute but
    the excluded parent, and loads a block from any data. *)
Definition plain_base : @BaseEntity named_entities :=
  @Build_BaseEntity named_entities
    (λ _ ds, mret ds)
    (λ task exclude_parent _,
       {| class_name := class_name task; action := action task;
          args := args task; statically_loaded := false;
          _parent := if exclude_parent then None else _parent task;
          _role := _role task; _variable_manager := _variable_manager task;
          _loader := _loader task |})
    (λ data play _ _ _ _, Return (data, play)).

(** A directive with the given action and arguments inside the block
    [parent]. *)
Definition directive (act : string) (a : gmap string pyval)
    (parent : option (pyval * string)) : @TaskInclude named_entities :=
  @Build_TaskInclude named_entities "TaskInclude" act a false parent
    (Some "web") (Some "vars") (Some "loader").

(** The decoded entry of a task list that names the action [act]. *)
Definition raw_data (act : string) (a : gmap string pyval) : pyval :=
  PDict {[ act := PDict a ]}.

(** ** Orders of iteration *)

Definition str_le (a b : string) : Prop := String.leb a b = true.

#[global] Instance str_le_dec : RelDecision str_le :=
  λ a b, decide (String.leb a b = true).



(** ** Construction and [load] *)

(** Code of the base class that construction goes through: the
    initialiser [Task.__init__], which builds the object from its enclosing
    block, role and generating include, and [load_data], which fills the
    object from the decoded data and returns it, or raises. *)
Class BaseConstruction `{Entities} : Type := {
  Task___init__ :
    option Block → option Role → option TaskInclude → TaskInclude;
  Task_load_data :
    pyval → option VariableManager → option DataLoader → Py TaskInclude unit
}.

Section construction.
Context `{BaseConstruction}.
Variable C : Constants.
Variable set_iter : gset string → list string.

(** [TaskInclude.__init__(self, block, role, task_include)] *)
Definition __init__ (block : option Block) (role : option Role)
    (task_include : option TaskInclude) : TaskInclude :=
  let self := Task___init__ block role task_include in
  with_statically_loaded self false.

(** [TaskInclude.load(data, block, role, task_include, variable_manager,
    loader)]: the object [ti] in the end, and what the call returned or
    raised. *)
Definition load (data : pyval) (block : option Block) (role : option Role)
    (task_include : option TaskInclude)
    (variable_manager : option VariableManager)
    (loader : option DataLoader) : TaskInclude * outcome TaskInclude :=
  let ti := __init__ block role task_include in
  (Task_load_data data variable_manager loader;;
   task ← check_options C set_iter data;
   mret task) ti.

End construction.

(** A construction that keeps the enclosing block and the role, and takes
    the action and the arguments from the one entry of the decoded data. *)
Definition plain_construction : @BaseConstruction named_entities :=
  @Build_BaseConstruction named_entities
    (λ block role _,
       @Build_TaskInclude named_entities "TaskInclude" "" ∅ false block role
         None None)
    (λ data variable_manager loader self,
       match data with
       | PDict d =>
           match map_to_list d with
           | [(act, PDict a)] =>
               (@Build_TaskInclude named_entities (class_name self) act a
                  (statically_loaded self) (_parent self) (_role self)
                  variable_manager loader,
                Return tt)
           | _ => (self, Raise (AnsibleParserError "no action detected in task" (Some data)))
           end
       | _ => (self, Raise (AnsibleParserError "no action detected in task" (Some data)))
       end).



(** * Properties *)

Section check_options_properties.
Context `{Entities} (C : Constants) (set_iter : gset string → list string).
Hypothesis set_iter_perm : ∀ s, set_iter s ≡ₚ elements s.

(** ** The blocks of [check_options] *)

Lemma validate_bad_args_eq data task :
  validate_bad_args C set_iter data task =
    (task,
     if bool_decide (bad_opts task ≠ ∅)
        && in_tuple (action task) (_ACTION_ALL_PROPER_INCLUDE_IMPORT_TASKS C)
     then Raise (AnsibleParserError
                   ("Invalid options for " +:+ action task +:+ ": "
                    +:+ String.concat "," (set_iter (bad_opts task)))
                   (Some data))
     else Return tt).
Proof.
  unfold validate_bad_args, bad_opts, mbind, Py_bind, get, when, raise; simpl.
  by destruct (_ && _).
Qed.

Lemma fold_file_into_raw_params_eq task :
  fold_file_into_raw_params task =
    if truthy (dict_get (args task) "_raw_params" PNone)
    then (task, Return tt)
    else (folded task,
          if truthy (dict_get (args task) "file" PNone)
          then Return tt
          else Raise (AnsibleParserError
                        ("No file specified for " +:+ action task) None)).
Proof.
  unfold fold_file_into_raw_params, folded, mbind, Py_bind, args_get, args_pop,
    args_setitem, args_getitem, get, when, raise; simpl.
  destruct (truthy (dict_get (args task) "_raw_params" PNone)); simpl; [done|].
  rewrite lookup_insert_eq.
  by destruct (truthy (dict_get (args task) "file" PNone)).
Qed.

Lemma validate_apply_eq data task :
  validate_apply C data task =
    (task,
     if truthy (dict_get (args task) "apply" (PDict ∅))
        && negb (in_tuple (action task) (_ACTION_INCLUDE_TASKS C))
     then Raise (AnsibleParserError
                   ("Invalid options for " +:+ action task +:+ ": apply")
                   (Some data))
     else if negb (isinstance_dict (dict_get (args task) "apply" (PDict ∅)))
     then Raise (AnsibleParserError
                   ("Expected a dict for apply but got "
                    +:+ type_str (dict_get (args task) "apply" (PDict ∅))
                    +:+ " instead")
                   (Some data))
     else Return tt).
Proof.
  unfold validate_apply, mbind, Py_bind, args_get, get, raise; simpl.
  destruct (_ && _); [done|]. by destruct (negb _).
Qed.

(** [check_options] runs its three blocks in order and returns the
    object. *)
Lemma check_options_blocks data task :
  check_options C set_iter data task =
    (validate_bad_args C set_iter data;;
     fold_file_into_raw_params;;
     validate_apply C data;;
     get) task.
Proof.
  unfold check_options, validate_bad_args, fold_file_into_raw_params,
    validate_apply, mbind, Py_bind, args_get, args_pop, args_setitem,
    args_getitem, get, when, raise; simpl.
  destruct (_ && _); [done|]. simpl.
  destruct (truthy (dict_get (args task) "_raw_params" PNone)); simpl.
  - destruct (_ && _); [done|]. by destruct (negb _).
  - rewrite lookup_insert_eq.
    destruct (truthy (dict_get (args task) "file" PNone)); simpl; [|done].
    destruct (_ && _); [done|]. by destruct (negb _).
Qed.

(** The outcome of [check_options] from the outcomes of its blocks. *)
Lemma check_options_eq data task :
  check_options C set_iter data task =
    match validate_bad_args C set_iter data task with
    | (_, Raise e) => (task, Raise e)
    | (_, Return _) =>
        match fold_file_into_raw_params task with
        | (task', Raise e) => (task', Raise e)
        | (task', Return _) =>
            match validate_apply C data task' with
            | (_, Raise e) => (task', Raise e)
            | (_, Return _) => (task', Return task')
            end
        end
    end.
Proof.
  rewrite check_options_blocks. unfold mbind, Py_bind.
  rewrite validate_bad_args_eq.
  destruct (_ && _); [done|].
  destruct (fold_file_into_raw_params task) as [task' [[]|e]]; [|done].
  rewrite validate_apply_eq.
  destruct (_ && _); [done|]. by destruct (negb _).
Qed.


(** The first block lets the directive through exactly when no option
    name is foreign or the action is outside the tasks family. *)
Lemma bad_args_pass_iff task :
  bool_decide (bad_opts task ≠ ∅)
  && in_tuple (action task) (_ACTION_ALL_PROPER_INCLUDE_IMPORT_TASKS C) = false
  ↔ bad_opts task = ∅
    ∨ action task ∉ _ACTION_ALL_PROPER_INCLUDE_IMPORT_TASKS C.
Proof.
  unfold in_tuple. rewrite andb_false_iff, !bool_decide_eq_false.
  split; (intros [?|?]; [left|by right]).
  - by destruct (decide (bad_opts task = ∅)).
  - auto.
Qed.

Lemma elem_of_bad_opts task k :
  k ∈ bad_opts task ↔ is_Some (args task !! k) ∧ k ∉ VALID_ARGS.
Proof. unfold bad_opts. by rewrite elem_of_difference, elem_of_dom. Qed.

Lemma bad_opts_empty_iff task :
  bad_opts task = ∅ ↔ ∀ k, is_Some (args task !! k) → k ∈ VALID_ARGS.
Proof.
  split.
  - intros He k Hk. destruct (decide (k ∈ VALID_ARGS)) as [|Hn]; [done|].
    assert (k ∈ bad_opts task) as Hin by (by apply elem_of_bad_opts).
    rewrite He in Hin. by apply not_elem_of_empty in Hin.
  - intros Hall. apply set_eq. intros k. rewrite elem_of_bad_opts.
    split; [intros [??]; exfalso; auto | by intros ?%not_elem_of_empty].
Qed.

(** Folding [file] leaves [apply], the action and the other attributes. *)
Lemma folded_apply task dflt :
  dict_get (args (folded task)) "apply" dflt = dict_get (args task) "apply" dflt.
Proof.
  unfold folded, dict_get; simpl.
  by rewrite lookup_insert_ne, lookup_delete_ne.
Qed.

Lemma folded_raw_params task :
  args (folded task) !! "_raw_params"
  = Some (dict_get (args task) "file" PNone).
Proof. unfold folded; simpl. by rewrite lookup_insert_eq. Qed.

Lemma folded_file task : args (folded task) !! "file" = None.
Proof.
  unfold folded; simpl. by rewrite lookup_insert_ne, lookup_delete_eq.
Qed.

(** [check_options] when the first block lets the directive through. *)
Lemma check_options_after_bad_args data task :
  bad_opts task = ∅
  ∨ action task ∉ _ACTION_ALL_PROPER_INCLUDE_IMPORT_TASKS C →
  check_options C set_iter data task =
    match fold_file_into_raw_params task with
    | (task', Raise e) => (task', Raise e)
    | (task', Return _) =>
        match validate_apply C data task' with
        | (_, Raise e) => (task', Raise e)
        | (_, Return _) => (task', Return task')
        end
    end.
Proof.
  intros Hpass%bad_args_pass_iff.
  by rewrite check_options_eq, validate_bad_args_eq, Hpass.
Qed.

(** ** Foreign option names *)


(** ** The include target *)

(** C2 (as the code has it): when [_raw_params] is empty or absent, [args]
    has a [file] entry whose value is non-empty, and the option check that
    comes first lets the directive through (no key outside [VALID_ARGS], or
    an action outside the tasks family), the folding step of
    [check_options] succeeds: the call ends with [_raw_params] holding the
    former value of [file], with [file] gone and the other entries as they
    were, and its outcome is that of the [apply] check, never the
    "No file specified" error. *)
Theorem fold_file_sets_raw_params data task v :
  truthy (dict_get (args task) "_raw_params" PNone) = false →
  args task !! "file" = Some v →
  truthy v = true →
  bad_opts task = ∅
  ∨ action task ∉ _ACTION_ALL_PROPER_INCLUDE_IMPORT_TASKS C →
  let task' := fst (check_options C set_iter data task) in
  fold_file_into_raw_params task = (task', Return tt)
  ∧ args task' !! "_raw_params" = Some v
  ∧ args task' !! "file" = None
  ∧ (∀ k, k ≠ "file" → k ≠ "_raw_params" → args task' !! k = args task !! k)
  ∧ snd (check_options C set_iter data task)
    ≠ Raise (AnsibleParserError ("No file specified for " +:+ action task) None)
  ∧ snd (check_options C set_iter data task) =
      if truthy (dict_get (args task) "apply" (PDict ∅))
         && negb (in_tuple (action task) (_ACTION_INCLUDE_TASKS C))
      then Raise (AnsibleParserError
                    ("Invalid options for " +:+ action task +:+ ": apply")
                    (Some data))
      else if negb (isinstance_dict (dict_get (args task) "apply" (PDict ∅)))
      then Raise (AnsibleParserError
                    ("Expected a dict for apply but got "
                     +:+ type_str (dict_get (args task) "apply" (PDict ∅))
                     +:+ " instead")
                    (Some data))
      else Return task'.
Proof.
  intros Hraw Hfile Hv Hpass.
  assert (dict_get (args task) "file" PNone = v) as Hget
    by (unfold dict_get; by rewrite Hfile).
  assert (fold_file_into_raw_params task = (folded task, Return tt)) as Hfold
    by (by rewrite fold_file_into_raw_params_eq, Hraw, Hget, Hv).
  assert (check_options C set_iter data task =
            (folded task,
             if truthy (dict_get (args task) "apply" (PDict ∅))
                && negb (in_tuple (action task) (_ACTION_INCLUDE_TASKS C))
             then Raise (AnsibleParserError
                           ("Invalid options for " +:+ action task
                            +:+ ": apply")
                           (Some data))
             else if negb (isinstance_dict
                             (dict_get (args task) "apply" (PDict ∅)))
             then Raise (AnsibleParserError
                           ("Expected a dict for apply but got "
                            +:+ type_str
                                  (dict_get (args task) "apply" (PDict ∅))
                            +:+ " instead")
                           (Some data))
             else Return (folded task))) as Hcheck.
  { rewrite (check_options_after_bad_args _ _ Hpass), Hfold.
    rewrite validate_apply_eq, !folded_apply. simpl action.
    destruct (truthy _ && _); [done|]. by destruct (negb _). }
  intros task'. unfold task'. rewrite Hcheck. simpl fst. simpl snd.
  split_and!; [done| | | | |done].
  - by rewrite folded_raw_params, Hget.
  - apply folded_file.
  - intros k Hk1 Hk2. unfold folded; simpl.
    by rewrite lookup_insert_ne, lookup_delete_ne.
  - destruct (truthy _ && _); [done|]. by destruct (negb _).
Qed.

(** C3 (as the code has it): when [_raw_params] is empty or absent and
    [args] has no [file] entry, [check_options] never succeeds; and if the
    first block lets the directive through (no foreign option name, or an
    action outside the tasks family), it raises "No file specified for
    <action>", having stored [None] under [_raw_params]. *)
Theorem check_options_no_file data task :
  truthy (dict_get (args task) "_raw_params" PNone) = false →
  args task !! "file" = None →
  is_Return (snd (check_options C set_iter data task)) = false
  ∧ (bad_opts task = ∅
     ∨ action task ∉ _ACTION_ALL_PROPER_INCLUDE_IMPORT_TASKS C →
     check_options C set_iter data task =
       (with_args task (<["_raw_params" := PNone]> (args task)),
        Raise (AnsibleParserError
                 ("No file specified for " +:+ action task) None))).
Proof.
  intros Hraw Hfile.
  assert (dict_get (args task) "file" PNone = PNone) as Hget
    by (unfold dict_get; by rewrite Hfile).
  assert (folded task = with_args task (<["_raw_params" := PNone]> (args task)))
    as Hfolded.
  { unfold folded. rewrite Hget. f_equal. f_equal. by apply delete_id. }
  assert (fold_file_into_raw_params task =
            (folded task,
             Raise (AnsibleParserError
                      ("No file specified for " +:+ action task) None)))
    as Hfold by (by rewrite fold_file_into_raw_params_eq, Hraw, Hget).
  split.
  - rewrite check_options_eq, validate_bad_args_eq.
    destruct (_ && _); [done|]. by rewrite Hfold.
  - intros Hpass.
    by rewrite (check_options_after_bad_args _ _ Hpass), Hfold, Hfolded.
Qed.

(** [check_options] once a target is there: the verdict is the one of the
    [apply] block, read on the original arguments. *)
Lemma check_options_with_target data task :
  bad_opts task = ∅
  ∨ action task ∉ _ACTION_ALL_PROPER_INCLUDE_IMPORT_TASKS C →
  truthy (dict_get (args task) "_raw_params" PNone) = true
  ∨ truthy (dict_get (args task) "file" PNone) = true →
  ∃ task',
    (task' = task ∨ task' = folded task)
    ∧ check_options C set_iter data task =
        (task',
         if truthy (dict_get (args task) "apply" (PDict ∅))
            && negb (in_tuple (action task) (_ACTION_INCLUDE_TASKS C))
         then Raise (AnsibleParserError
                       ("Invalid options for " +:+ action task +:+ ": apply")
                       (Some data))
         else if negb (isinstance_dict (dict_get (args task) "apply" (PDict ∅)))
         then Raise (AnsibleParserError
                       ("Expected a dict for apply but got "
                        +:+ type_str (dict_get (args task) "apply" (PDict ∅))
                        +:+ " instead")
                       (Some data))
         else Return task').
Proof.
  intros Hpass Htarget.
  rewrite (check_options_after_bad_args _ _ Hpass), fold_file_into_raw_params_eq.
  destruct (truthy (dict_get (args task) "_raw_params" PNone)) eqn:Hraw.
  - exists task. split; [by left|]. rewrite validate_apply_eq.
    destruct (_ && _); [done|]. by destruct (negb _).
  - destruct Htarget as [?|Hfile]; [done|]. rewrite Hfile.
    exists (folded task). split; [by right|].
    rewrite validate_apply_eq, !folded_apply. simpl.
    destruct (_ && _); [done|]. by destruct (negb _).
Qed.

(** [check_options] never succeeds on a directive the [apply] block
    rejects. *)
Lemma check_options_apply_rejected data task :
  truthy (dict_get (args task) "apply" (PDict ∅))
  && negb (in_tuple (action task) (_ACTION_INCLUDE_TASKS C)) = true
  ∨ isinstance_dict (dict_get (args task) "apply" (PDict ∅)) = false →
  is_Return (snd (check_options C set_iter data task)) = false.
Proof.
  intros Hrej. rewrite check_options_eq, validate_bad_args_eq.
  destruct (bool_decide (bad_opts task ≠ ∅) && _); [done|].
  rewrite fold_file_into_raw_params_eq.
  destruct (truthy (dict_get (args task) "_raw_params" PNone)).
  - rewrite validate_apply_eq.
    destruct Hrej as [-> | ->]; [done|]. by destruct (_ && _).
  - destruct (truthy (dict_get (args task) "file" PNone)); [|done].
    rewrite validate_apply_eq, !folded_apply. simpl.
    destruct Hrej as [-> | ->]; [done|]. by destruct (_ && _).
Qed.

(** ** The [apply] option *)

(** C4 (as the code has it): when the action is not the dynamic include
    and [args] holds a non-empty [apply], [check_options] never succeeds;
    and if the two earlier blocks let the directive through (no foreign
    option name or an action outside the tasks family, and a non-empty
    [_raw_params] or [file]), it raises "Invalid options for <action>:
    apply". *)
Theorem check_options_apply_not_allowed data task v :
  action task ∉ _ACTION_INCLUDE_TASKS C →
  args task !! "apply" = Some v →
  truthy v = true →
  is_Return (snd (check_options C set_iter data task)) = false
  ∧ (bad_opts task = ∅
     ∨ action task ∉ _ACTION_ALL_PROPER_INCLUDE_IMPORT_TASKS C →
     truthy (dict_get (args task) "_raw_params" PNone) = true
     ∨ truthy (dict_get (args task) "file" PNone) = true →
     snd (check_options C set_iter data task) =
       Raise (AnsibleParserError
                ("Invalid options for " +:+ action task +:+ ": apply")
                (Some data))).
Proof.
  intros Hact Happly Hv.
  assert (dict_get (args task) "apply" (PDict ∅) = v) as Hget
    by (unfold dict_get; by rewrite Happly).
  assert (truthy (dict_get (args task) "apply" (PDict ∅))
          && negb (in_tuple (action task) (_ACTION_INCLUDE_TASKS C)) = true)
    as Hrej.
  { rewrite Hget, Hv. unfold in_tuple. by rewrite bool_decide_eq_false_2. }
  split.
  - apply check_options_apply_rejected. by left.
  - intros Hpass Htarget.
    destruct (check_options_with_target data task Hpass Htarget)
      as (task' & _ & ->).
    by rewrite Hrej.
Qed.

(** C5 (as the code has it): when [args] holds an [apply] that is not a
    dict, [check_options] never succeeds; and if the two earlier blocks let
    the directive through and the value is empty or the action is the
    dynamic include, it raises "Expected a dict for apply but got <type>
    instead", with the type of the value. (A non-empty value on another
    action is rejected as an invalid option instead.) *)
Theorem check_options_apply_not_dict data task v :
  args task !! "apply" = Some v →
  isinstance_dict v = false →
  is_Return (snd (check_options C set_iter data task)) = false
  ∧ (bad_opts task = ∅
     ∨ action task ∉ _ACTION_ALL_PROPER_INCLUDE_IMPORT_TASKS C →
     truthy (dict_get (args task) "_raw_params" PNone) = true
     ∨ truthy (dict_get (args task) "file" PNone) = true →
     truthy v = false ∨ action task ∈ _ACTION_INCLUDE_TASKS C →
     snd (check_options C set_iter data task) =
       Raise (AnsibleParserError
                ("Expected a dict for apply but got " +:+ type_str v
                 +:+ " instead")
                (Some data))).
Proof.
  intros Happly Hv.
  assert (dict_get (args task) "apply" (PDict ∅) = v) as Hget
    by (unfold dict_get; by rewrite Happly).
  split.
  - apply check_options_apply_rejected. right. by rewrite Hget.
  - intros Hpass Htarget Hok.
    destruct (check_options_with_target data task Hpass Htarget)
      as (task' & _ & ->).
    rewrite Hget, Hv. simpl.
    destruct Hok as [-> | Hin]; [done|].
    unfold in_tuple. rewrite (bool_decide_eq_true_2 _ Hin). simpl.
    by rewrite andb_false_r.
Qed.

(** ** Directives with valid option names only *)


(** ** The state after a failure *)

(** C10 (as the code has it): when [check_options] raises "No file
    specified for <action>", the directive has been changed by the call:
    [file] is no longer a key of [args], and [_raw_params] holds what
    [file] held, an empty value, or [None] if [file] was absent. *)
Theorem check_options_no_file_mutates data task :
  snd (check_options C set_iter data task)
  = Raise (AnsibleParserError ("No file specified for " +:+ action task) None) →
  fst (check_options C set_iter data task) = folded task
  ∧ args (folded task) !! "file" = None
  ∧ args (folded task) !! "_raw_params"
    = Some (dict_get (args task) "file" PNone)
  ∧ truthy (dict_get (args task) "file" PNone) = false
  ∧ (args task !! "file" = None →
     args (folded task) !! "_raw_params" = Some PNone).
Proof.
  rewrite check_options_eq, validate_bad_args_eq.
  destruct (_ && _); [done|].
  rewrite fold_file_into_raw_params_eq.
  destruct (truthy (dict_get (args task) "_raw_params" PNone)).
  { rewrite validate_apply_eq. destruct (_ && _); [done|]. by destruct (negb _). }
  destruct (truthy (dict_get (args task) "file" PNone)) eqn:Hfile.
  { rewrite validate_apply_eq. destruct (_ && _); [done|]. by destruct (negb _). }
  intros _. split_and!; [done| | |done|].
  - apply folded_file.
  - apply folded_raw_params.
  - intros Hnone. rewrite folded_raw_params. unfold dict_get. by rewrite Hnone.
Qed.

End check_options_properties.

Section base_entity_properties.
Context `{BaseEntity} (C : Constants) (set_iter : gset string → list string).
Hypothesis set_iter_perm : ∀ s, set_iter s ≡ₚ elements s.

Lemma truthy_dict d : truthy (PDict d) = true ↔ d ≠ ∅.
Proof.
  simpl. rewrite <-(map_to_list_empty_iff d).
  by destruct (map_to_list d).
Qed.


(** ** [build_parent_block] *)


(** ** [copy] *)

(** C7: whatever the two flags, the copy has the [statically_loaded] of the
    original, and its other attributes are those the base copy gave it. *)
Theorem copy_statically_loaded self exclude_parent exclude_tasks :
  statically_loaded (copy self exclude_parent exclude_tasks)
  = statically_loaded self
  ∧ copy self exclude_parent exclude_tasks
    = with_statically_loaded (Task_copy self exclude_parent exclude_tasks)
        (statically_loaded self).
Proof. done. Qed.

(** ** [preprocess_data] *)

(** The loop over a list of keys of [ds], for a role-family action: under
    the strict policy it stops at the first supplied key, otherwise it
    warns once for each supplied key. *)
Lemma preprocess_loop self ds a l log :
  ds !! "action" = Some a →
  pyval_in_tuple a (_ACTION_ALL_INCLUDE_ROLE_TASKS C) = true →
  (∀ k, k ∈ l → is_Some (ds !! k)) →
  for_each l (λ k,
    v ← lift (getitem ds k);
    if negb (is_Sentinel v) then
      a ← lift (getitem ds "action");
      if pyval_in_tuple a (_ACTION_ALL_INCLUDE_ROLE_TASKS C) then
        if INVALID_TASK_ATTRIBUTE_FAILED C then
          raise (AnsibleParserError
                   ("'" +:+ k +:+ "' is not a valid attribute for a "
                    +:+ class_name self)
                   (Some (PDict ds)))
        else display_warning ("Ignoring invalid attribute: " +:+ k)
      else mret tt
    else mret tt) log
  = if INVALID_TASK_ATTRIBUTE_FAILED C then
      match filter (λ k, supplied ds k) l with
      | [] => (log, Return tt)
      | k :: _ =>
          (log, Raise (AnsibleParserError
                         ("'" +:+ k +:+ "' is not a valid attribute for a "
                          +:+ class_name self)
                         (Some (PDict ds))))
      end
    else
      (log ++ map (λ k, "Ignoring invalid attribute: " +:+ k)
                (filter (λ k, supplied ds k) l),
       Return tt).
Proof.
  intros Haction Hrole Hkeys. revert log.
  induction l as [|k l IH]; intros log; simpl.
  { destruct (INVALID_TASK_ATTRIBUTE_FAILED C); [done|].
    by rewrite app_nil_r. }
  destruct (Hkeys k) as [v Hv]; [by left|].
  assert (∀ k', k' ∈ l → is_Some (ds !! k')) as Hkeys'
    by (intros k' ?; apply Hkeys; by right).
  specialize (IH Hkeys').
  assert (supplied ds k = negb (is_Sentinel v)) as Hs
    by (unfold supplied; by rewrite Hv).
  unfold mbind at 1, Py_bind at 1. unfold mbind at 1, Py_bind at 1.
  unfold lift at 1, getitem at 1. rewrite Hv.
  destruct (is_Sentinel v); simpl in Hs |- *.
  - rewrite filter_cons_False by (rewrite Hs; intros []). apply IH.
  - rewrite filter_cons_True by (rewrite Hs; exact I).
    unfold mbind at 1, Py_bind at 1, lift at 1, getitem at 1.
    rewrite Haction, Hrole.
    destruct (INVALID_TASK_ATTRIBUTE_FAILED C); [done|].
    unfold display_warning. rewrite IH. simpl. by rewrite <-app_assoc.
Qed.


End base_entity_properties.

(** * Worked examples *)

(** ** Directives on which a claim of the specification fails *)


(** C2: a [file] entry that is empty does not make the step succeed. *)
Lemma fold_file_empty_value_fails :
  let a : gmap string pyval := {["file" := PStr ""]} in
  let task := directive "include_tasks" a None in
  let data := raw_data "include_tasks" a in
  truthy (dict_get (args task) "_raw_params" PNone) = false
  ∧ args task !! "file" = Some (PStr "")
  ∧ snd (fold_file_into_raw_params task)
    = Raise (AnsibleParserError "No file specified for include_tasks" None)
  ∧ snd (check_options (ansible_constants true) elements data task)
    = Raise (AnsibleParserError "No file specified for include_tasks" None).
Proof. split_and!; vm_compute; reflexivity. Qed.

(** C3: with a foreign option on a tasks-family action, the option check
    comes first and the error is not "No file specified". *)
Lemma check_options_foreign_option_first :
  let a : gmap string pyval := {["bogus" := PInt 1]} in
  let task := directive "include_tasks" a None in
  let data := raw_data "include_tasks" a in
  truthy (dict_get (args task) "_raw_params" PNone) = false
  ∧ args task !! "file" = None
  ∧ snd (check_options (ansible_constants true) elements data task)
    = Raise (AnsibleParserError
               "Invalid options for include_tasks: bogus" (Some data))
  ∧ snd (check_options (ansible_constants true) elements data task)
    ≠ Raise (AnsibleParserError "No file specified for include_tasks" None).
Proof.
  split_and!; try (vm_compute; reflexivity). vm_compute. intros [=].
Qed.

(** C4: [apply] on the static import, but no target: the error is "No file
    specified", not an invalid option. *)
Lemma check_options_apply_without_target :
  let a : gmap string pyval :=
    {["apply" := PDict {["tags" := PList [PStr "a"]]}]} in
  let task := directive "import_tasks" a None in
  let data := raw_data "import_tasks" a in
  (action task ∉ _ACTION_INCLUDE_TASKS (ansible_constants true))
  ∧ truthy (dict_get (args task) "apply" (PDict ∅)) = true
  ∧ snd (check_options (ansible_constants true) elements data task)
    = Raise (AnsibleParserError "No file specified for import_tasks" None)
  ∧ snd (check_options (ansible_constants true) elements data task)
    ≠ Raise (AnsibleParserError
               "Invalid options for import_tasks: apply" (Some data)).
Proof.
  split_and!; try (vm_compute; reflexivity).
  - compute_done.
  - vm_compute. intros [=].
Qed.

(** C5: an [apply] that is a non-empty string on the static import is
    rejected as an invalid option, not as a value of the wrong type. *)
Lemma check_options_apply_string_on_import :
  let a : gmap string pyval :=
    <["apply" := PStr "not-a-mapping"]> {["_raw_params" := PStr "x.yml"]} in
  let task := directive "import_tasks" a None in
  let data := raw_data "import_tasks" a in
  args task !! "apply" = Some (PStr "not-a-mapping")
  ∧ isinstance_dict (PStr "not-a-mapping") = false
  ∧ snd (check_options (ansible_constants true) elements data task)
    = Raise (AnsibleParserError
               "Invalid options for import_tasks: apply" (Some data))
  ∧ snd (check_options (ansible_constants true) elements data task)
    ≠ Raise (AnsibleParserError
               "Expected a dict for apply but got <class 'str'> instead"
               (Some data)).
Proof.
  split_and!; try (vm_compute; reflexivity). vm_compute. intros [=].
Qed.



(** C10: after "No file specified" on an empty [file], [_raw_params] holds
    the empty string, not [None]. *)
Lemma check_options_no_file_keeps_empty_string :
  let a : gmap string pyval := {["file" := PStr ""]} in
  let task := directive "import_tasks" a None in
  let data := raw_data "import_tasks" a in
  snd (check_options (ansible_constants true) elements data task)
    = Raise (AnsibleParserError "No file specified for import_tasks" None)
  ∧ args (fst (check_options (ansible_constants true) elements data task))
      !! "_raw_params" = Some (PStr "")
  ∧ args (fst (check_options (ansible_constants true) elements data task))
      !! "_raw_params" ≠ Some PNone.
Proof.
  split_and!; try (vm_compute; reflexivity). vm_compute. intros [=].
Qed.


(** ** The theorems at concrete directives *)


Lemma fold_file_sets_raw_params_witness :
  let a : gmap string pyval := {["file" := PStr "x.yml"]} in
  let task := directive "include_tasks" a None in
  let C := ansible_constants true in
  let data := raw_data "include_tasks" a in
  let task' := fst (check_options C elements data task) in
  fold_file_into_raw_params task = (task', Return tt)
  ∧ args task' !! "_raw_params" = Some (PStr "x.yml")
  ∧ args task' !! "file" = None
  ∧ (∀ k, k ≠ "file" → k ≠ "_raw_params" → args task' !! k = args task !! k)
  ∧ snd (check_options C elements data task)
    ≠ Raise (AnsibleParserError ("No file specified for " +:+ action task) None)
  ∧ snd (check_options C elements data task) =
      if truthy (dict_get (args task) "apply" (PDict ∅))
         && negb (in_tuple (action task) (_ACTION_INCLUDE_TASKS C))
      then Raise (AnsibleParserError
                    ("Invalid options for " +:+ action task +:+ ": apply")
                    (Some data))
      else if negb (isinstance_dict (dict_get (args task) "apply" (PDict ∅)))
      then Raise (AnsibleParserError
                    ("Expected a dict for apply but got "
                     +:+ type_str (dict_get (args task) "apply" (PDict ∅))
                     +:+ " instead")
                    (Some data))
      else Return task'.
Proof.
  intros a task C data.
  apply (fold_file_sets_raw_params C elements data task (PStr "x.yml"));
    [vm_compute; reflexivity | vm_compute; reflexivity
    | vm_compute; reflexivity | left; vm_compute; reflexivity].
Defined.

Lemma check_options_no_file_witness :
  let task := directive "include_tasks" ∅ None in
  let data := raw_data "include_tasks" ∅ in
  check_options (ansible_constants true) elements data task =
    (with_args task (<["_raw_params" := PNone]> (args task)),
     Raise (AnsibleParserError ("No file specified for " +:+ action task) None)).
Proof.
  intros task data.
  apply (check_options_no_file (ansible_constants true) elements data task);
    [vm_compute; reflexivity..|].
  left. vm_compute. reflexivity.
Defined.

Lemma check_options_apply_not_allowed_witness :
  let a : gmap string pyval :=
    <["apply" := PDict {["tags" := PList [PStr "a"]]}]>
      {["_raw_params" := PStr "x.yml"]} in
  let task := directive "import_tasks" a None in
  let data := raw_data "import_tasks" a in
  snd (check_options (ansible_constants true) elements data task) =
    Raise (AnsibleParserError
             ("Invalid options for " +:+ action task +:+ ": apply")
             (Some data)).
Proof.
  intros a task data.
  apply (check_options_apply_not_allowed (ansible_constants true) elements
           data task (PDict {["tags" := PList [PStr "a"]]}));
    [compute_done | vm_compute; reflexivity | vm_compute; reflexivity
    | left; vm_compute; reflexivity | left; vm_compute; reflexivity].
Defined.

Lemma check_options_apply_not_dict_witness :
  let a : gmap string pyval :=
    <["apply" := PStr "not-a-mapping"]> {["_raw_params" := PStr "x.yml"]} in
  let task := directive "include_tasks" a None in
  let data := raw_data "include_tasks" a in
  snd (check_options (ansible_constants true) elements data task) =
    Raise (AnsibleParserError
             ("Expected a dict for apply but got "
              +:+ type_str (PStr "not-a-mapping") +:+ " instead")
             (Some data)).
Proof.
  intros a task data.
  apply (check_options_apply_not_dict (ansible_constants true) elements
           data task (PStr "not-a-mapping"));
    [vm_compute; reflexivity | vm_compute; reflexivity
    | left; vm_compute; reflexivity | left; vm_compute; reflexivity
    | right; compute_done].
Defined.




Lemma check_options_no_file_mutates_witness :
  let task := directive "import_tasks" ∅ None in
  let data := raw_data "import_tasks" ∅ in
  fst (check_options (ansible_constants true) elements data task) = folded task
  ∧ args (folded task) !! "file" = None
  ∧ args (folded task) !! "_raw_params"
    = Some (dict_get (args task) "file" PNone)
  ∧ truthy (dict_get (args task) "file" PNone) = false
  ∧ (args task !! "file" = None →
     args (folded task) !! "_raw_params" = Some PNone).
Proof.
  intros task data.
  apply (check_options_no_file_mutates (ansible_constants true) elements
           data task).
  vm_compute. reflexivity.
Defined.

(** * Further properties of [check_options] *)

Section check_options_more.
Context `{Entities} (C : Constants) (set_iter : gset string → list string).

(** The whole decision of [check_options], check by check. *)
Lemma check_options_cases data task :
  (bool_decide (bad_opts task ≠ ∅)
   && in_tuple (action task) (_ACTION_ALL_PROPER_INCLUDE_IMPORT_TASKS C) = true
   ∧ check_options C set_iter data task =
       (task,
        Raise (AnsibleParserError
                 ("Invalid options for " +:+ action task +:+ ": "
                  +:+ String.concat "," (set_iter (bad_opts task)))
                 (Some data))))
  ∨ ((bad_opts task = ∅
      ∨ action task ∉ _ACTION_ALL_PROPER_INCLUDE_IMPORT_TASKS C)
     ∧ ((truthy (dict_get (args task) "_raw_params" PNone) = false
         ∧ truthy (dict_get (args task) "file" PNone) = false
         ∧ check_options C set_iter data task =
             (folded task,
              Raise (AnsibleParserError
                       ("No file specified for " +:+ action task) None)))
        ∨ (∃ task',
             (truthy (dict_get (args task) "_raw_params" PNone) = true
              ∧ task' = task
              ∨ truthy (dict_get (args task) "_raw_params" PNone) = false
                ∧ truthy (dict_get (args task) "file" PNone) = true
                ∧ task' = folded task)
             ∧ check_options C set_iter data task =
                 (task',
                  if truthy (dict_get (args task) "apply" (PDict ∅))
                     && negb (in_tuple (action task) (_ACTION_INCLUDE_TASKS C))
                  then Raise (AnsibleParserError
                                ("Invalid options for " +:+ action task
                                 +:+ ": apply")
                                (Some data))
                  else if negb (isinstance_dict
                                  (dict_get (args task) "apply" (PDict ∅)))
                  then Raise (AnsibleParserError
                                ("Expected a dict for apply but got "
                                 +:+ type_str
                                       (dict_get (args task) "apply" (PDict ∅))
                                 +:+ " instead")
                                (Some data))
                  else Return task')))).
Proof.
  destruct (bool_decide (bad_opts task ≠ ∅)
            && in_tuple (action task)
                 (_ACTION_ALL_PROPER_INCLUDE_IMPORT_TASKS C)) eqn:Hbad.
  - left. split; [done|].
    by rewrite check_options_eq, validate_bad_args_eq, Hbad.
  - right. apply bad_args_pass_iff in Hbad. split; [done|].
    rewrite (check_options_after_bad_args C set_iter data task Hbad),
      fold_file_into_raw_params_eq.
    destruct (truthy (dict_get (args task) "_raw_params" PNone)) eqn:Hraw.
    + right. exists task. split; [by left|]. rewrite validate_apply_eq.
      destruct (truthy _ && _); [done|]. by destruct (negb _).
    + destruct (truthy (dict_get (args task) "file" PNone)) eqn:Hfile.
      * right. exists (folded task). split; [by right|].
        rewrite validate_apply_eq, !folded_apply. simpl action.
        destruct (truthy _ && _); [done|]. by destruct (negb _).
      * by left.
Qed.

Lemma check_options_state data task :
  fst (check_options C set_iter data task) = task
  ∨ fst (check_options C set_iter data task) = folded task.
Proof.
  destruct (check_options_cases data task)
    as [[_ ->]|[_ [(_ & _ & ->)|(task' & Hst & ->)]]]; simpl; auto.
  destruct Hst as [[_ ->]|(_ & _ & ->)]; auto.
Qed.

(** X1: in every case, success or failure, [check_options] changes
    nothing of the directive but the entries [file] and [_raw_params] of
    its [args]. *)
Theorem check_options_frame data task :
  let task' := fst (check_options C set_iter data task) in
  class_name task' = class_name task
  ∧ action task' = action task
  ∧ statically_loaded task' = statically_loaded task
  ∧ _parent task' = _parent task
  ∧ _role task' = _role task
  ∧ _variable_manager task' = _variable_manager task
  ∧ _loader task' = _loader task
  ∧ ∀ k, k ≠ "file" → k ≠ "_raw_params" → args task' !! k = args task !! k.
Proof.
  intros task'. unfold task'.
  destruct (check_options_state data task) as [-> | ->]; [done|].
  split_and!; try done.
  intros k Hfile Hraw. unfold folded; simpl.
  by rewrite lookup_insert_ne, lookup_delete_ne.
Qed.

(** What holds of a directive that [check_options] returns. *)
Lemma check_options_returned data task t :
  snd (check_options C set_iter data task) = Return t →
  fst (check_options C set_iter data task) = t
  ∧ (∃ v, args t !! "_raw_params" = Some v ∧ truthy v = true)
  ∧ isinstance_dict (dict_get (args t) "apply" (PDict ∅)) = true
  ∧ (truthy (dict_get (args t) "apply" (PDict ∅)) = true →
     action t ∈ _ACTION_INCLUDE_TASKS C)
  ∧ (action t ∈ _ACTION_ALL_PROPER_INCLUDE_IMPORT_TASKS C →
     ∀ k, is_Some (args t !! k) → k ∈ VALID_ARGS).
Proof.
  destruct (check_options_cases data task)
    as [[_ ->]|[Hpass [(_ & _ & ->)|(task' & Hst & ->)]]]; simpl; [done..|].
  destruct (truthy (dict_get (args task) "apply" (PDict ∅))
            && negb (in_tuple (action task) (_ACTION_INCLUDE_TASKS C)))
    eqn:Happly; [done|].
  destruct (isinstance_dict (dict_get (args task) "apply" (PDict ∅)))
    eqn:Hdict; simpl; [|done].
  intros [= <-].
  assert (action task' = action task
          ∧ dict_get (args task') "apply" (PDict ∅)
            = dict_get (args task) "apply" (PDict ∅)) as [Hact Hget].
  { destruct Hst as [[_ ->]|(_ & _ & ->)]; [done|].
    by rewrite folded_apply. }
  rewrite Hact, Hget. split_and!; [done| |done| |].
  - destruct Hst as [[Hraw ->]|(_ & Hfile & ->)].
    + unfold dict_get in Hraw.
      destruct (args task !! "_raw_params") as [v|]; [by exists v|done].
    + rewrite folded_raw_params. by eexists.
  - intros Ht. rewrite Ht in Happly. unfold in_tuple in Happly.
    simpl in Happly. apply negb_false_iff in Happly.
    by apply bool_decide_eq_true_1 in Happly.
  - intros Hin. destruct Hpass as [Hempty|Hout]; [|done].
    assert (∀ k, is_Some (args task !! k) → k ∈ VALID_ARGS) as Hkeys
      by (by apply bad_opts_empty_iff).
    destruct Hst as [[_ ->]|(_ & _ & ->)]; [done|].
    intros k. unfold folded; simpl.
    destruct (decide (k = "_raw_params")) as [->|Hne]; [intros _; set_solver|].
    rewrite lookup_insert_ne by done.
    destruct (decide (k = "file")) as [->|Hne']; [intros _; set_solver|].
    rewrite lookup_delete_ne by done. apply Hkeys.
Qed.

(** X2: a directive that [check_options] returns is the object the call
    ended with, and it is well formed: [_raw_params] is non-empty, [apply]
    is absent or a dict, a non-empty [apply] sits on the dynamic include
    only, and on a tasks-family action every key of [args] is in
    [VALID_ARGS]. *)
Theorem check_options_success data task t :
  snd (check_options C set_iter data task) = Return t →
  fst (check_options C set_iter data task) = t
  ∧ (∃ v, args t !! "_raw_params" = Some v ∧ truthy v = true)
  ∧ isinstance_dict (dict_get (args t) "apply" (PDict ∅)) = true
  ∧ (truthy (dict_get (args t) "apply" (PDict ∅)) = true →
     action t ∈ _ACTION_INCLUDE_TASKS C)
  ∧ (action t ∈ _ACTION_ALL_PROPER_INCLUDE_IMPORT_TASKS C →
     ∀ k, is_Some (args t !! k) → k ∈ VALID_ARGS).
Proof. apply check_options_returned. Qed.

(** X3: validation is idempotent. Run again on a directive it has
    returned, [check_options] returns that directive and changes nothing. *)
Theorem check_options_idempotent data task t :
  snd (check_options C set_iter data task) = Return t →
  check_options C set_iter data t = (t, Return t).
Proof.
  intros (_ & (v & Hv & Htrue) & Hdict & Happly & Hkeys)%check_options_returned.
  assert (truthy (dict_get (args t) "_raw_params" PNone) = true) as Hraw
    by (unfold dict_get; by rewrite Hv).
  destruct (check_options_cases data t)
    as [[Hbad _]|[_ [(Hno & _)|(t' & Hst & ->)]]].
  - apply andb_true_iff in Hbad as [Hne Hin]. unfold in_tuple in Hin.
    apply bool_decide_eq_true_1 in Hne, Hin.
    exfalso. apply Hne. apply bad_opts_empty_iff. by apply Hkeys.
  - by rewrite Hraw in Hno.
  - destruct Hst as [[_ ->]|(Hno & _)]; [|by rewrite Hraw in Hno].
    rewrite Hdict. simpl.
    destruct (truthy (dict_get (args t) "apply" (PDict ∅))); [|done].
    unfold in_tuple. by rewrite (bool_decide_eq_true_2 _ (Happly eq_refl)).
Qed.

(** What [check_options] can raise. *)
Lemma check_options_raised data task e :
  snd (check_options C set_iter data task) = Raise e →
  e = AnsibleParserError
        ("Invalid options for " +:+ action task +:+ ": "
         +:+ String.concat "," (set_iter (bad_opts task)))
        (Some data)
  ∨ e = AnsibleParserError ("No file specified for " +:+ action task) None
  ∨ e = AnsibleParserError
          ("Invalid options for " +:+ action task +:+ ": apply") (Some data)
  ∨ e = AnsibleParserError
          ("Expected a dict for apply but got "
           +:+ type_str (dict_get (args task) "apply" (PDict ∅))
           +:+ " instead")
          (Some data).
Proof.
  destruct (check_options_cases data task)
    as [[_ ->]|[_ [(_ & _ & ->)|(task' & _ & ->)]]]; simpl.
  - intros [= <-]. by left.
  - intros [= <-]. right. by left.
  - destruct (truthy _ && _); [intros [= <-]; right; right; by left|].
    destruct (negb _); [intros [= <-]; by repeat right|done].
Qed.

(** X4: on a directive whose [args] keys are all strings,
    [check_options] raises nothing but its own four parser errors; in
    particular the subscript [task.args['_raw_params']] never raises a
    [KeyError]. *)
Theorem check_options_raises data task e :
  snd (check_options C set_iter data task) = Raise e →
  e = AnsibleParserError
        ("Invalid options for " +:+ action task +:+ ": "
         +:+ String.concat "," (set_iter (bad_opts task)))
        (Some data)
  ∨ e = AnsibleParserError ("No file specified for " +:+ action task) None
  ∨ e = AnsibleParserError
          ("Invalid options for " +:+ action task +:+ ": apply") (Some data)
  ∨ e = AnsibleParserError
          ("Expected a dict for apply but got "
           +:+ type_str (dict_get (args task) "apply" (PDict ∅))
           +:+ " instead")
          (Some data).
Proof. apply check_options_raised. Qed.

(** X5: a non-empty [_raw_params] takes precedence over [file]: the
    directive is then not modified at all, whatever the outcome, so a
    [file] entry given beside it stays in [args]. *)
Theorem check_options_raw_params_first data task :
  truthy (dict_get (args task) "_raw_params" PNone) = true →
  fst (check_options C set_iter data task) = task.
Proof.
  intros Hraw.
  destruct (check_options_cases data task)
    as [[_ ->]|[_ [(Hno & _)|(task' & Hst & ->)]]]; simpl; [done| |].
  - by rewrite Hraw in Hno.
  - destruct Hst as [[_ ->]|(Hno & _)]; [done|]. by rewrite Hraw in Hno.
Qed.

(** X6: once the option names are accepted and [_raw_params] is empty or
    absent, [file] is folded whatever comes next: also when the call then
    fails on the target or on [apply], the directive is left with [file]
    removed and its value, or [None], under [_raw_params]. *)
Theorem check_options_folds data task :
  bad_opts task = ∅
  ∨ action task ∉ _ACTION_ALL_PROPER_INCLUDE_IMPORT_TASKS C →
  truthy (dict_get (args task) "_raw_params" PNone) = false →
  fst (check_options C set_iter data task) = folded task
  ∧ args (folded task) !! "file" = None
  ∧ args (folded task) !! "_raw_params"
    = Some (dict_get (args task) "file" PNone).
Proof.
  intros Hpass Hraw. split_and!; [|apply folded_file|apply folded_raw_params].
  destruct (check_options_cases data task)
    as [[Hbad _]|[_ [(_ & _ & ->)|(task' & Hst & ->)]]]; simpl; [|done|].
  - apply bad_args_pass_iff in Hpass. by rewrite Hpass in Hbad.
  - destruct Hst as [[Hyes _]|(_ & _ & ->)]; [|done]. by rewrite Hraw in Hyes.
Qed.

(** X7: on an action outside the include/import-tasks family, the names of
    the options are never a reason to fail: [check_options] succeeds
    exactly when a target is there and [apply] is acceptable, whatever
    other keys [args] holds. *)
Theorem check_options_outside_tasks_family data task :
  action task ∉ _ACTION_ALL_PROPER_INCLUDE_IMPORT_TASKS C →
  is_Return (snd (check_options C set_iter data task)) = true
  ↔ (truthy (dict_get (args task) "_raw_params" PNone) = true
     ∨ truthy (dict_get (args task) "file" PNone) = true)
    ∧ isinstance_dict (dict_get (args task) "apply" (PDict ∅)) = true
    ∧ (truthy (dict_get (args task) "apply" (PDict ∅)) = false
       ∨ action task ∈ _ACTION_INCLUDE_TASKS C).
Proof.
  intros Hout.
  destruct (check_options_cases data task)
    as [[Hbad _]|[_ [(Hraw & Hfile & ->)|(task' & Hst & ->)]]]; simpl.
  - apply andb_true_iff in Hbad as [_ Hin]. unfold in_tuple in Hin.
    by apply bool_decide_eq_true_1 in Hin.
  - rewrite Hraw, Hfile. split; [done | by intros [[?|?] _]].
  - assert (truthy (dict_get (args task) "_raw_params" PNone) = true
            ∨ truthy (dict_get (args task) "file" PNone) = true) as Htarget
      by (destruct Hst as [[? _]|(_ & ? & _)]; auto).
    unfold in_tuple.
    destruct (truthy (dict_get (args task) "apply" (PDict ∅)));
      destruct (isinstance_dict (dict_get (args task) "apply" (PDict ∅)));
      case_bool_decide; simpl; intuition congruence.
Qed.

End check_options_more.

(** * Further properties of [build_parent_block] *)

Section build_parent_block_more.
Context `{BaseEntity} (C : Constants) (set_iter : gset string → list string).

(** [build_parent_block] in one equation: the pop, then the outcome. *)
Lemma build_parent_block_eq self :
  build_parent_block self =
    (with_args self (delete "apply" (args self)),
     if truthy (dict_get (args self) "apply" (PDict ∅)) then
       match setitem (dict_get (args self) "apply" (PDict ∅)) "block" (PList [])
       with
       | Raise e => Raise e
       | Return apply_attrs =>
           match _parent self with
           | None => Raise (AttributeError
                              "'NoneType' object has no attribute '_play'")
           | Some parent =>
               match Block_load apply_attrs (_play parent)
                       (with_args self (delete "apply" (args self)))
                       (_role self) (_variable_manager self) (_loader self)
               with
               | Return b => Return (NewBlock b)
               | Raise e => Raise e
               end
           end
       end
     else Return Self).
Proof.
  unfold build_parent_block, mbind, Py_bind, args_pop, lift, get.
  destruct (truthy (dict_get (args self) "apply" (PDict ∅))); [|done].
  destruct (setitem _ _ _) as [apply_attrs|e]; [|done]. simpl.
  destruct (_parent self) as [parent|]; [|done].
  unfold mret, Py_ret. by destruct (Block_load _ _ _ _ _ _).
Qed.


(** X9: the wrapper can be built once only. Called again on the directive
    a first call has left, [build_parent_block] returns the directive
    itself and changes nothing, whatever the first call did. *)
Theorem build_parent_block_twice self :
  build_parent_block (fst (build_parent_block self))
  = (fst (build_parent_block self), Return Self).
Proof.
  rewrite (build_parent_block_eq self). simpl.
  rewrite build_parent_block_eq. simpl.
  unfold dict_get. rewrite lookup_delete_eq. simpl.
  by rewrite delete_delete_eq.
Qed.

(** X10: a non-empty [apply] that is not a dict makes
    [build_parent_block] raise a [TypeError] at the item assignment, after
    [apply] was removed and before any block is loaded. *)
Theorem build_parent_block_apply_not_dict self v :
  args self !! "apply" = Some v →
  truthy v = true →
  isinstance_dict v = false →
  ∃ msg,
    build_parent_block self =
      (with_args self (delete "apply" (args self)), Raise (TypeError msg)).
Proof.
  intros Happly Hv Hdict. rewrite build_parent_block_eq.
  unfold dict_get. rewrite Happly. simpl. rewrite Hv.
  destruct v; try done; simpl; eauto.
Qed.

(** X11: with a non-empty dict under [apply] but no enclosing block,
    [build_parent_block] raises an [AttributeError], after [apply] was
    removed. *)
Theorem build_parent_block_no_parent self d :
  args self !! "apply" = Some (PDict d) →
  d ≠ ∅ →
  _parent self = None →
  build_parent_block self =
    (with_args self (delete "apply" (args self)),
     Raise (AttributeError "'NoneType' object has no attribute '_play'")).
Proof.
  intros Happly Hd%truthy_dict Hparent. rewrite build_parent_block_eq.
  unfold dict_get. rewrite Happly. simpl default. rewrite Hd. simpl.
  by rewrite Hparent.
Qed.

(** X12: on a directive that [check_options] has returned, the item
    assignment of [build_parent_block] cannot fail, and only the dynamic
    include gets a wrapper: either [apply] is absent or empty and the
    directive itself comes back, or the action is the dynamic include,
    [apply] is a non-empty dict, and the outcome is that of [Block.load]
    (or the [AttributeError] of a missing enclosing block). *)
Theorem build_parent_block_after_check_options data task t :
  snd (check_options C set_iter data task) = Return t →
  (truthy (dict_get (args t) "apply" (PDict ∅)) = false
   ∧ snd (build_parent_block t) = Return Self)
  ∨ (action t ∈ _ACTION_INCLUDE_TASKS C
     ∧ ∃ d,
         args t !! "apply" = Some (PDict d)
         ∧ d ≠ ∅
         ∧ snd (build_parent_block t) =
             match _parent t with
             | None => Raise (AttributeError
                                "'NoneType' object has no attribute '_play'")
             | Some parent =>
                 match Block_load (PDict (<["block" := PList []]> d))
                         (_play parent)
                         (with_args t (delete "apply" (args t)))
                         (_role t) (_variable_manager t) (_loader t)
                 with
                 | Return b => Return (NewBlock b)
                 | Raise e => Raise e
                 end
             end).
Proof.
  intros (_ & _ & Hdict & Happly & _)%check_options_returned.
  rewrite build_parent_block_eq. simpl.
  destruct (truthy (dict_get (args t) "apply" (PDict ∅))) eqn:Htruthy;
    [right|by left].
  split; [by apply Happly|].
  unfold dict_get in *.
  destruct (args t !! "apply") as [[| | | | | |d]|] eqn:Hget; simpl in *;
    try done.
  exists d. split_and!; [done|by apply truthy_dict|done].
Qed.

End build_parent_block_more.

(** * Further properties of [preprocess_data] *)

Section preprocess_data_more.
Context `{BaseEntity} (C : Constants) (set_iter : gset string → list string).
Hypothesis set_iter_perm : ∀ s, set_iter s ≡ₚ elements s.

(** The keys the loop visits are keys of the data. *)
Lemma set_iter_keys (ds : gmap string pyval) k :
  k ∈ set_iter (dom ds ∖ VALID_INCLUDE_KEYWORDS) → is_Some (ds !! k).
Proof.
  rewrite set_iter_perm, elem_of_elements, elem_of_difference, elem_of_dom.
  by intros [? _].
Qed.

(** The loop does nothing when no key is supplied or the action is not of
    the role family. *)
Lemma preprocess_loop_quiet self (ds : gmap string pyval) l log :
  (∀ k, k ∈ l → is_Some (ds !! k)) →
  filter (λ k, supplied ds k) l = []
  ∨ (∃ a, ds !! "action" = Some a
          ∧ pyval_in_tuple a (_ACTION_ALL_INCLUDE_ROLE_TASKS C) = false) →
  for_each l (λ k,
    v ← lift (getitem ds k);
    if negb (is_Sentinel v) then
      a ← lift (getitem ds "action");
      if pyval_in_tuple a (_ACTION_ALL_INCLUDE_ROLE_TASKS C) then
        if INVALID_TASK_ATTRIBUTE_FAILED C then
          raise (AnsibleParserError
                   ("'" +:+ k +:+ "' is not a valid attribute for a "
                    +:+ class_name self)
                   (Some (PDict ds)))
        else display_warning ("Ignoring invalid attribute: " +:+ k)
      else mret tt
    else mret tt) log
  = (log, Return tt).
Proof.
  intros Hkeys Hquiet. induction l as [|k l IH]; simpl; [done|].
  destruct (Hkeys k) as [v Hv]; [by left|].
  assert (supplied ds k = negb (is_Sentinel v)) as Hs
    by (unfold supplied; by rewrite Hv).
  unfold mbind at 1, Py_bind at 1. unfold mbind at 1, Py_bind at 1.
  unfold lift at 1, getitem at 1. rewrite Hv.
  assert (∀ k', k' ∈ l → is_Some (ds !! k')) as Hkeys'
    by (intros k' ?; apply Hkeys; by right).
  destruct (is_Sentinel v); simpl in Hs |- *.
  - apply IH; [done|]. destruct Hquiet as [Hnil|?]; [left|by right].
    by rewrite filter_cons_False in Hnil by (rewrite Hs; intros []).
  - destruct Hquiet as [Hnil|(a & Ha & Hrole)].
    + by rewrite filter_cons_True in Hnil by (rewrite Hs; exact I).
    + unfold mbind at 1, Py_bind at 1, lift at 1, getitem at 1.
      rewrite Ha, Hrole. apply IH; [done|]. right. eauto.
Qed.

(** Without an [action] entry, the loop raises at the first supplied key. *)
Lemma preprocess_loop_no_action self (ds : gmap string pyval) l log :
  (∀ k, k ∈ l → is_Some (ds !! k)) →
  ds !! "action" = None →
  filter (λ k, supplied ds k) l ≠ [] →
  for_each l (λ k,
    v ← lift (getitem ds k);
    if negb (is_Sentinel v) then
      a ← lift (getitem ds "action");
      if pyval_in_tuple a (_ACTION_ALL_INCLUDE_ROLE_TASKS C) then
        if INVALID_TASK_ATTRIBUTE_FAILED C then
          raise (AnsibleParserError
                   ("'" +:+ k +:+ "' is not a valid attribute for a "
                    +:+ class_name self)
                   (Some (PDict ds)))
        else display_warning ("Ignoring invalid attribute: " +:+ k)
      else mret tt
    else mret tt) log
  = (log, Raise (KeyError "action")).
Proof.
  intros Hkeys Haction Hsome. induction l as [|k l IH]; simpl; [done|].
  destruct (Hkeys k) as [v Hv]; [by left|].
  assert (supplied ds k = negb (is_Sentinel v)) as Hs
    by (unfold supplied; by rewrite Hv).
  unfold mbind at 1, Py_bind at 1. unfold mbind at 1, Py_bind at 1.
  unfold lift at 1, getitem at 1. rewrite Hv.
  destruct (is_Sentinel v); simpl in Hs |- *.
  - apply IH; [intros k' ?; apply Hkeys; by right|].
    by rewrite filter_cons_False in Hsome by (rewrite Hs; intros []).
  - unfold mbind at 1, Py_bind at 1, lift at 1, getitem at 1.
    by rewrite Haction.
Qed.

(** X13: on an action outside the role family, [preprocess_data] hands on
    what the base-entity step returned, whatever keys it holds and whatever
    the policy: no error and no warning of its own. *)
Theorem preprocess_data_other_action self ds0 log ds log' a :
  Task_preprocess_data self ds0 log = (log', Return ds) →
  ds !! "action" = Some a →
  pyval_in_tuple a (_ACTION_ALL_INCLUDE_ROLE_TASKS C) = false →
  preprocess_data C set_iter self ds0 log = (log', Return ds).
Proof.
  intros Hbase Haction Hrole.
  unfold preprocess_data. unfold mbind at 1, Py_bind at 1. rewrite Hbase.
  unfold mbind at 1, Py_bind at 1.
  rewrite preprocess_loop_quiet; [done|apply set_iter_keys|].
  right. eauto.
Qed.

(** X14: when every key of the data is a valid include keyword or is bound
    to [Sentinel], [preprocess_data] hands the data on untouched, without
    looking at the action: under either policy, and also when the data has
    no [action] entry. *)
Theorem preprocess_data_valid_keywords self ds0 log (ds : gmap string pyval) log' :
  Task_preprocess_data self ds0 log = (log', Return ds) →
  (∀ k v, ds !! k = Some v →
          k ∈ VALID_INCLUDE_KEYWORDS ∨ is_Sentinel v = true) →
  preprocess_data C set_iter self ds0 log = (log', Return ds).
Proof.
  intros Hbase Hvalid.
  unfold preprocess_data. unfold mbind at 1, Py_bind at 1. rewrite Hbase.
  unfold mbind at 1, Py_bind at 1.
  rewrite preprocess_loop_quiet; [done|apply set_iter_keys|].
  left.
  destruct (filter (λ k, supplied ds k)
              (set_iter (dom ds ∖ VALID_INCLUDE_KEYWORDS))) as [|k ks] eqn:Hf;
    [done|exfalso].
  assert (k ∈ filter (λ k, supplied ds k)
                (set_iter (dom ds ∖ VALID_INCLUDE_KEYWORDS))) as Hin
    by (rewrite Hf; by left).
  apply list_elem_of_filter in Hin as [Hs Hk].
  rewrite set_iter_perm, elem_of_elements, elem_of_difference in Hk.
  destruct Hk as [_ Hk]. unfold supplied in Hs.
  destruct (ds !! k) as [v|] eqn:Hv; [|done].
  destruct (Hvalid k v Hv) as [?|Hsent]; [done|]. by rewrite Hsent in Hs.
Qed.

(** X15: when the data has no [action] entry but holds a supplied key
    outside the valid include keywords, [preprocess_data] raises
    [KeyError] for [action], under either policy and without a warning. *)
Theorem preprocess_data_missing_action self ds0 log (ds : gmap string pyval)
    log' k v :
  Task_preprocess_data self ds0 log = (log', Return ds) →
  ds !! "action" = None →
  ds !! k = Some v →
  k ∉ VALID_INCLUDE_KEYWORDS →
  is_Sentinel v = false →
  preprocess_data C set_iter self ds0 log = (log', Raise (KeyError "action")).
Proof.
  intros Hbase Haction Hk Hinvalid Hv.
  unfold preprocess_data. unfold mbind at 1, Py_bind at 1. rewrite Hbase.
  unfold mbind at 1, Py_bind at 1.
  rewrite preprocess_loop_no_action; [done|apply set_iter_keys|done|].
  intros Hnil. eapply filter_nil_not_elem_of; [exact Hnil| |].
  - unfold supplied. rewrite Hk, Hv. exact I.
  - rewrite set_iter_perm, elem_of_elements, elem_of_difference, elem_of_dom.
    eauto.
Qed.

(** X16: [preprocess_data] never alters the data. Whenever it returns, it
    returns exactly what the base-entity step returned; what it adds to
    the warnings is nothing under the strict policy, and otherwise only
    "Ignoring invalid attribute" messages for keys of the data outside the
    valid include keywords. *)
Theorem preprocess_data_returns_base_data self ds0 log ds log2 :
  preprocess_data C set_iter self ds0 log = (log2, Return ds) →
  ∃ log1 keys,
    Task_preprocess_data self ds0 log = (log1, Return ds)
    ∧ log2 = log1 ++ map (λ k, "Ignoring invalid attribute: " +:+ k) keys
    ∧ (INVALID_TASK_ATTRIBUTE_FAILED C = true → keys = [])
    ∧ ∀ k, k ∈ keys → is_Some (ds !! k) ∧ k ∉ VALID_INCLUDE_KEYWORDS.
Proof.
  unfold preprocess_data. unfold mbind at 1, Py_bind at 1.
  destruct (Task_preprocess_data self ds0 log) as [log1 [ds1|e]] eqn:Hbase;
    [|done].
  unfold mbind at 1, Py_bind at 1.
  assert (∀ k, k ∈ extraneous set_iter ds1 →
               is_Some (ds1 !! k) ∧ k ∉ VALID_INCLUDE_KEYWORDS) as Hext.
  { intros k. unfold extraneous.
    rewrite list_elem_of_filter, set_iter_perm, elem_of_elements,
      elem_of_difference, elem_of_dom. tauto. }
  destruct (filter (λ k, supplied ds1 k)
              (set_iter (dom ds1 ∖ VALID_INCLUDE_KEYWORDS))) as [|k0 ks] eqn:Hf.
  { rewrite preprocess_loop_quiet; [|apply set_iter_keys|by left].
    intros [= <- <-]. exists log1, [].
    split_and!; [done|by rewrite app_nil_r|done|by intros k ?%elem_of_nil]. }
  destruct (ds1 !! "action") as [a|] eqn:Haction.
  - destruct (pyval_in_tuple a (_ACTION_ALL_INCLUDE_ROLE_TASKS C)) eqn:Hrole.
    + rewrite (preprocess_loop C self ds1 a _ log1 Haction Hrole)
        by apply set_iter_keys.
      rewrite Hf. destruct (INVALID_TASK_ATTRIBUTE_FAILED C); [done|].
      intros [= <- <-]. exists log1, (k0 :: ks). split_and!; try done.
      intros k Hk. apply Hext. unfold extraneous. by rewrite Hf.
    + rewrite preprocess_loop_quiet; [|apply set_iter_keys|right; eauto].
      intros [= <- <-]. exists log1, [].
      split_and!; [done|by rewrite app_nil_r|done|by intros k ?%elem_of_nil].
  - rewrite preprocess_loop_no_action;
      [done|apply set_iter_keys|done|by rewrite Hf].
Qed.

End preprocess_data_more.

(** * Properties of [load] *)

Section load_properties.
Context `{BaseConstruction} (C : Constants) (set_iter : gset string → list string).

(** [load] is [load_data] on the new object, then [check_options]. *)
Lemma load_eq data block role task_include variable_manager loader :
  load C set_iter data block role task_include variable_manager loader =
    match Task_load_data data variable_manager loader
            (__init__ block role task_include)
    with
    | (ti, Return _) => check_options C set_iter data ti
    | (ti, Raise e) => (ti, Raise e)
    end.
Proof.
  unfold load, mbind, Py_bind, mret, Py_ret.
  destruct (Task_load_data _ _ _ _) as [ti [[]|e]]; [|done].
  by destruct (check_options C set_iter data ti) as [ti' [t|e]].
Qed.

(** X17: whatever [load_data] makes of the data, a directive that [load]
    returns has passed [check_options]: it is the object that was built,
    its [_raw_params] is non-empty, its [apply] is absent or a dict and
    non-empty on the dynamic include only, and on a tasks-family action
    every key of its [args] is in [VALID_ARGS]. *)
Theorem load_returns_checked data block role task_include variable_manager
    loader t :
  snd (load C set_iter data block role task_include variable_manager loader)
  = Return t →
  fst (load C set_iter data block role task_include variable_manager loader)
  = t
  ∧ (∃ v, args t !! "_raw_params" = Some v ∧ truthy v = true)
  ∧ isinstance_dict (dict_get (args t) "apply" (PDict ∅)) = true
  ∧ (truthy (dict_get (args t) "apply" (PDict ∅)) = true →
     action t ∈ _ACTION_INCLUDE_TASKS C)
  ∧ (action t ∈ _ACTION_ALL_PROPER_INCLUDE_IMPORT_TASKS C →
     ∀ k, is_Some (args t !! k) → k ∈ VALID_ARGS).
Proof.
  rewrite load_eq.
  destruct (Task_load_data _ _ _ _) as [ti [[]|e]]; [|done].
  apply check_options_returned.
Qed.

End load_properties.

(** * The further properties at concrete directives *)

Lemma check_options_success_witness :
  let a : gmap string pyval :=
    <["apply" := PDict {["tags" := PList [PStr "a"]]}]>
      {["file" := PStr "x.yml"]} in
  let task := directive "include_tasks" a None in
  let C := ansible_constants true in
  let t := folded task in
  fst (check_options C elements (raw_data "include_tasks" a) task) = t
  ∧ (∃ v, args t !! "_raw_params" = Some v ∧ truthy v = true)
  ∧ isinstance_dict (dict_get (args t) "apply" (PDict ∅)) = true
  ∧ (truthy (dict_get (args t) "apply" (PDict ∅)) = true →
     action t ∈ _ACTION_INCLUDE_TASKS C)
  ∧ (action t ∈ _ACTION_ALL_PROPER_INCLUDE_IMPORT_TASKS C →
     ∀ k, is_Some (args t !! k) → k ∈ VALID_ARGS).
Proof.
  intros a task C t.
  apply (check_options_success C elements (raw_data "include_tasks" a) task t).
  vm_compute. reflexivity.
Defined.

Lemma check_options_idempotent_witness :
  let a : gmap string pyval := {["file" := PStr "x.yml"]} in
  let task := directive "import_tasks" a None in
  let data := raw_data "import_tasks" a in
  check_options (ansible_constants true) elements data (folded task)
  = (folded task, Return (folded task)).
Proof.
  intros a task data.
  apply (check_options_idempotent (ansible_constants true) elements data task).
  vm_compute. reflexivity.
Defined.

Lemma check_options_raises_witness :
  let a : gmap string pyval := {["file" := PStr ""]} in
  let task := directive "include_tasks" a None in
  let data := raw_data "include_tasks" a in
  let e := AnsibleParserError "No file specified for include_tasks" None in
  snd (check_options (ansible_constants true) elements data task) = Raise e
  ∧ (e = AnsibleParserError
           ("Invalid options for " +:+ action task +:+ ": "
            +:+ String.concat "," (elements (bad_opts task)))
           (Some data)
     ∨ e = AnsibleParserError ("No file specified for " +:+ action task) None
     ∨ e = AnsibleParserError
             ("Invalid options for " +:+ action task +:+ ": apply") (Some data)
     ∨ e = AnsibleParserError
             ("Expected a dict for apply but got "
              +:+ type_str (dict_get (args task) "apply" (PDict ∅))
              +:+ " instead")
             (Some data)).
Proof.
  intros a task data e.
  assert (snd (check_options (ansible_constants true) elements data task)
          = Raise e) as Hraise by (vm_compute; reflexivity).
  split; [exact Hraise|].
  exact (check_options_raises (ansible_constants true) elements data task e
           Hraise).
Defined.

Lemma check_options_raw_params_first_witness :
  let a : gmap string pyval :=
    <["file" := PStr "b.yml"]> {["_raw_params" := PStr "a.yml"]} in
  let task := directive "include_tasks" a None in
  fst (check_options (ansible_constants true) elements
         (raw_data "include_tasks" a) task) = task.
Proof.
  intros a task.
  apply (check_options_raw_params_first (ansible_constants true) elements
           (raw_data "include_tasks" a) task).
  vm_compute. reflexivity.
Defined.

Lemma check_options_folds_witness :
  let a : gmap string pyval :=
    <["apply" := PDict {["tags" := PList [PStr "a"]]}]>
      {["file" := PStr "x.yml"]} in
  let task := directive "import_tasks" a None in
  let data := raw_data "import_tasks" a in
  fst (check_options (ansible_constants true) elements data task) = folded task
  ∧ args (folded task) !! "file" = None
  ∧ args (folded task) !! "_raw_params"
    = Some (dict_get (args task) "file" PNone).
Proof.
  intros a task data.
  apply (check_options_folds (ansible_constants true) elements data task);
    [left|]; vm_compute; reflexivity.
Defined.

Lemma check_options_outside_tasks_family_witness :
  let a : gmap string pyval :=
    <["tasks_from" := PStr "install"]> {["_raw_params" := PStr "web"]} in
  let task := directive "include_role" a None in
  is_Return (snd (check_options (ansible_constants true) elements
                    (raw_data "include_role" a) task)) = true.
Proof.
  intros a task.
  apply (check_options_outside_tasks_family (ansible_constants true) elements
           (raw_data "include_role" a) task); [compute_done|].
  split_and!; [left| |left]; vm_compute; reflexivity.
Defined.

Lemma build_parent_block_apply_not_dict_witness :
  let a : gmap string pyval :=
    <["apply" := PStr "not-a-mapping"]> {["_raw_params" := PStr "x.yml"]} in
  let self := directive "include_tasks" a (Some (PDict ∅, "site")) in
  ∃ msg,
    @build_parent_block _ plain_base self =
      (with_args self (delete "apply" (args self)), Raise (TypeError msg)).
Proof.
  intros a self.
  apply (@build_parent_block_apply_not_dict _ plain_base self
           (PStr "not-a-mapping")); vm_compute; reflexivity.
Defined.

Lemma build_parent_block_no_parent_witness :
  let d : gmap string pyval := {["tags" := PList [PStr "a"]]} in
  let a : gmap string pyval :=
    <["apply" := PDict d]> {["_raw_params" := PStr "x.yml"]} in
  let self := directive "include_tasks" a None in
  @build_parent_block _ plain_base self =
    (with_args self (delete "apply" (args self)),
     Raise (AttributeError "'NoneType' object has no attribute '_play'")).
Proof.
  intros d a self.
  apply (@build_parent_block_no_parent _ plain_base self d);
    [vm_compute; reflexivity | | reflexivity].
  intros Hd. apply (f_equal (λ m : gmap string pyval, m !! "tags")) in Hd.
  vm_compute in Hd. discriminate Hd.
Defined.

Lemma build_parent_block_after_check_options_witness :
  let a : gmap string pyval := {["_raw_params" := PStr "x.yml"]} in
  let task := directive "import_tasks" a (Some (PDict ∅, "site")) in
  let C := ansible_constants true in
  (truthy (dict_get (args task) "apply" (PDict ∅)) = false
   ∧ snd (@build_parent_block _ plain_base task) = Return Self)
  ∨ (action task ∈ _ACTION_INCLUDE_TASKS C
     ∧ ∃ d,
         args task !! "apply" = Some (PDict d)
         ∧ d ≠ ∅
         ∧ snd (@build_parent_block _ plain_base task) =
             match _parent task with
             | None => Raise (AttributeError
                                "'NoneType' object has no attribute '_play'")
             | Some parent =>
                 match @Block_load _ plain_base
                         (PDict (<["block" := PList []]> d))
                         (_play parent)
                         (with_args task (delete "apply" (args task)))
                         (_role task) (_variable_manager task) (_loader task)
                 with
                 | Return b => Return (NewBlock b)
                 | Raise e => Raise e
                 end
             end).
Proof.
  intros a task C.
  apply (@build_parent_block_after_check_options _ plain_base C elements
           (raw_data "import_tasks" a) task task).
  vm_compute. reflexivity.
Defined.

Lemma preprocess_data_other_action_witness :
  let ds : gmap string pyval :=
    <["foo" := PStr "bar"]> {["action" := PStr "include_tasks"]} in
  let self := directive "include_tasks" ∅ None in
  @preprocess_data _ plain_base (ansible_constants true) elements self ds []
  = ([], Return ds).
Proof.
  intros ds self.
  apply (@preprocess_data_other_action _ plain_base (ansible_constants true)
           elements (λ s, reflexivity _) self ds [] ds []
           (PStr "include_tasks")); vm_compute; reflexivity.
Defined.

Lemma preprocess_data_valid_keywords_witness :
  let ds : gmap string pyval :=
    <["foo" := PSentinel]> {["name" := PStr "deploy"]} in
  let self := directive "include_role" ∅ None in
  @preprocess_data _ plain_base (ansible_constants true) elements self ds []
  = ([], Return ds).
Proof.
  intros ds self.
  apply (@preprocess_data_valid_keywords _ plain_base (ansible_constants true)
           elements (λ s, reflexivity _) self ds [] ds []); [reflexivity|].
  intros k v. unfold ds.
  destruct (decide (k = "foo")) as [->|Hfoo].
  - rewrite lookup_insert_eq. intros [= <-]. by right.
  - rewrite lookup_insert_ne by done.
    destruct (decide (k = "name")) as [->|Hname].
    + intros _. left. compute_done.
    + by rewrite lookup_singleton_ne.
Defined.

Lemma preprocess_data_missing_action_witness :
  let ds : gmap string pyval := {["foo" := PStr "bar"]} in
  let self := directive "include_role" ∅ None in
  @preprocess_data _ plain_base (ansible_constants false) elements self ds []
  = ([], Raise (KeyError "action")).
Proof.
  intros ds self.
  apply (@preprocess_data_missing_action _ plain_base (ansible_constants false)
           elements (λ s, reflexivity _) self ds [] ds [] "foo" (PStr "bar"));
    [reflexivity | vm_compute; reflexivity | vm_compute; reflexivity
    | compute_done | reflexivity].
Defined.

Lemma preprocess_data_returns_base_data_witness :
  let ds : gmap string pyval :=
    <["foo" := PStr "bar"]> {["action" := PStr "include_role"]} in
  let self := directive "include_role" ∅ None in
  let C := ansible_constants false in
  ∃ log1 keys,
    @Task_preprocess_data _ plain_base self ds [] = (log1, Return ds)
    ∧ ["Ignoring invalid attribute: foo"]
      = log1 ++ map (λ k, "Ignoring invalid attribute: " +:+ k) keys
    ∧ (INVALID_TASK_ATTRIBUTE_FAILED C = true → keys = [])
    ∧ ∀ k, k ∈ keys → is_Some (ds !! k) ∧ k ∉ VALID_INCLUDE_KEYWORDS.
Proof.
  intros ds self C.
  apply (@preprocess_data_returns_base_data _ plain_base C elements
           (λ s, reflexivity _) self ds [] ds
           ["Ignoring invalid attribute: foo"]).
  vm_compute. reflexivity.
Defined.

Lemma load_returns_checked_witness :
  let a : gmap string pyval := {["file" := PStr "x.yml"]} in
  let data := raw_data "include_tasks" a in
  let C := ansible_constants true in
  let t := @Build_TaskInclude named_entities "TaskInclude" "include_tasks"
             {["_raw_params" := PStr "x.yml"]} false
             (Some (PDict ∅, "site")) (Some "web") (Some "vars")
             (Some "loader") in
  fst (@load _ plain_construction C elements data (Some (PDict ∅, "site"))
         (Some "web") None (Some "vars") (Some "loader")) = t
  ∧ (∃ v, args t !! "_raw_params" = Some v ∧ truthy v = true)
  ∧ isinstance_dict (dict_get (args t) "apply" (PDict ∅)) = true
  ∧ (truthy (dict_get (args t) "apply" (PDict ∅)) = true →
     action t ∈ _ACTION_INCLUDE_TASKS C)
  ∧ (action t ∈ _ACTION_ALL_PROPER_INCLUDE_IMPORT_TASKS C →
     ∀ k, is_Some (args t !! k) → k ∈ VALID_ARGS).
Proof.
  intros a data C t.
  apply (@load_returns_checked _ plain_construction C elements data
           (Some (PDict ∅, "site")) (Some "web") None (Some "vars")
           (Some "loader") t).
  vm_compute. reflexivity.
Defined.
